(** * FieldElement: a shallow embedding of [src/python/FieldElement.py]

    The Python class [FieldElement] stores two integers, [num] and [order],
    and offers a checked constructor, a textual representation and an
    equality test.  Python integers are unbounded, so they are modelled as
    [Z]; a raised exception is modelled as the [Raise] branch of [result].
    The interpreter is CPython 3.11 or later with its settings as it
    starts, where an integer of more than 4300 digits is not converted to
    text. *)

From Stdlib Require Import ZArith NArith Nnat Lia List String Ascii Bool.
From Stdlib Require DecimalFacts DecimalPos DecimalZ.
From Stdlib Require Import DecimalString Znumtheory.
From Stdlib Require Import Zmod.ZmodInv.
Import ListNotations.

Local Open Scope string_scope.
Local Open Scope Z_scope.

(** ** Exceptions and results *)

Inductive exn : Type :=
| ValueError (msg : string)
| AttributeError (msg : string)
| IndexError (msg : string)
| IncompatibleOrderError
| ZeroToNonPositivePowerError.

Inductive result (A : Type) : Type :=
| Ok (a : A)
| Raise (e : exn).

Arguments Ok {A} a.
Arguments Raise {A} e.

Definition bind {A B : Type} (r : result A) (k : A -> result B) : result B :=
  match r with
  | Ok a => k a
  | Raise e => Raise e
  end.

Notation "x <- r ;; k" := (bind r (fun x => k))
  (at level 61, r at next level, right associativity).

(** ** Python values met by the class *)

(** The decimal numeral of an integer: its digits, with a leading minus
    sign when negative. *)
Definition decimal (z : Z) : string :=
  NilZero.string_of_int (Z.to_int z).

(** [sys.get_int_max_str_digits()], as the interpreter starts with it. *)
Definition int_max_str_digits : nat := 4300.

(** The number of digits of the numeral, the sign apart. *)
Definition digits (z : Z) : nat :=
  String.length (decimal (Z.abs z)).

Definition fits (z : Z) : bool :=
  (digits z <=? int_max_str_digits)%nat.

Definition MAX_STR_DIGITS_ERROR : string :=
  "Exceeds the limit (4300 digits) for integer string conversion; use sys.set_int_max_str_digits() to increase the limit".

(** What [str(n)], and a field [{}] of [format], give for an integer: its
    decimal numeral, or [ValueError] when it has more digits than the
    limit. *)
Definition str_int (z : Z) : result string :=
  if fits z then Ok (decimal z)
  else Raise (ValueError MAX_STR_DIGITS_ERROR).

(** What [int(s)] reads back from a decimal numeral. *)
Definition parse_int (s : string) : option Z :=
  option_map Z.of_int (NilZero.int_of_string s).

(** [template.format(args)] with integer arguments, for the templates of
    this file: their only braces are those of the automatic field [{}].
    The template is rendered from left to right, so the first argument
    that cannot be converted decides the exception.  A field with no
    argument left raises [IndexError] and arguments left over are
    ignored; any other brace is treated as an unmatched one, which raises
    [ValueError]. *)
Fixpoint format (template : string) (args : list Z) : result string :=
  match template with
  | EmptyString => Ok EmptyString
  | String "{" (String "}" rest) =>
      match args with
      | [] => Raise (IndexError
                "Replacement index out of range for positional args tuple")
      | a :: args' =>
          t <- str_int a ;; s <- format rest args' ;; Ok (t ++ s)
      end
  | String "{" _ => Raise (ValueError "expected '}' before end of string")
  | String "}" _ => Raise (ValueError "Single '}' encountered in format string")
  | String c rest => s <- format rest args ;; Ok (String c s)
  end.

(** An instance of the class: the two attributes set by [__init__]. *)
Record FieldElement : Type := mkFieldElement { num : Z; order : Z }.

(** Values an attribute of a foreign object holds in this model: [None],
    an integer or a string.  Floats, booleans and objects with an
    equality of their own are not modelled. *)
Inductive pyatom : Type :=
| ANone
| AInt (z : Z)
| AStr (s : string).

(** Objects handed to [__eq__] as [other] in this model: [None], an
    integer, a string, a field element, or an instance of another class
    with plain data attributes.  Targets whose attribute access runs code
    (properties, [__getattr__]) and class or module objects are not
    modelled. *)
Inductive pyobj : Type :=
| PyNone
| PyInt (z : Z)
| PyStr (s : string)
| PyFieldElement (fe : FieldElement)
| PyInstance (cls : string) (attrs : list (string * pyatom)).

Definition type_name (o : pyobj) : string :=
  match o with
  | PyNone => "NoneType"
  | PyInt _ => "int"
  | PyStr _ => "str"
  | PyFieldElement _ => "FieldElement"
  | PyInstance cls _ => cls
  end.

Fixpoint lookup_attr (name : string) (attrs : list (string * pyatom))
  : option pyatom :=
  match attrs with
  | [] => None
  | (k, v) :: rest => if String.eqb k name then Some v else lookup_attr name rest
  end.

(** Attribute access [o.name]; a missing attribute raises
    [AttributeError]. *)
Definition getattr (o : pyobj) (name : string) : result pyatom :=
  let missing :=
    Raise (AttributeError
      ("'" ++ type_name o ++ "' object has no attribute '" ++ name ++ "'")) in
  match o with
  | PyFieldElement fe =>
      if String.eqb name "num" then Ok (AInt (num fe))
      else if String.eqb name "order" then Ok (AInt (order fe))
      else missing
  | PyInstance _ attrs =>
      match lookup_attr name attrs with
      | Some v => Ok v
      | None => missing
      end
  | _ => missing
  end.

(** [z == v] for an integer [z] and one of the attribute values above:
    equal only to the same integer. *)
Definition int_eq (z : Z) (v : pyatom) : bool :=
  match v with
  | AInt z' => z =? z'
  | _ => false
  end.

(** ** The class *)

(** [FieldElement.__init__(self, num, order)] *)
Definition __init__ (num order : Z) : result FieldElement :=
  if (num >=? order) || (num <? 0) then
    error <- format "Num {} not in field range 0 to {}" [num; order - 1] ;;
    Raise (ValueError error)
  else
    Ok {| num := num; order := order |}.

(** [FieldElement.__repr__(self)] *)
Definition __repr__ (self : FieldElement) : result string :=
  format "FieldElement_{}({})" [order self; num self].

(** [FieldElement.__eq__(self, other)]; [and] evaluates its right operand
    only when the left one is true. *)
Definition __eq__ (self : FieldElement) (other : pyobj) : result bool :=
  match other with
  | PyNone => Ok false
  | _ =>
      n <- getattr other "num" ;;
      if int_eq (num self) n then
        o <- getattr other "order" ;; Ok (int_eq (order self) o)
      else Ok false
  end.

(** ** Instances and the calls that reach them *)

(** The range invariant of an instance. *)
Definition in_range (fe : FieldElement) : Prop :=
  0 <= num fe < order fe.

Definition in_rangeb (fe : FieldElement) : bool :=
  (0 <=? num fe) && (num fe <? order fe).

(** A program using the class holds the instances it has built so far in
    a list, and can call the three methods of the class on them. *)
Inductive call : Type :=
| New (num order : Z)
| Repr (i : nat)
| Eq (i : nat) (other : pyobj).

Inductive pyval : Type :=
| VRef (i : nat)
| VStr (s : string)
| VBool (b : bool).

Definition held (instances : list FieldElement) (i : nat)
  : result FieldElement :=
  match nth_error instances i with
  | Some fe => Ok fe
  | None => Raise (IndexError "list index out of range")
  end.

Definition step (instances : list FieldElement) (c : call)
  : list FieldElement * result pyval :=
  match c with
  | New n o =>
      match __init__ n o with
      | Ok fe => ((instances ++ [fe])%list, Ok (VRef (List.length instances)))
      | Raise e => (instances, Raise e)
      end
  | Repr i =>
      (instances, self <- held instances i ;; s <- __repr__ self ;; Ok (VStr s))
  | Eq i other =>
      (instances, self <- held instances i ;; b <- __eq__ self other ;; Ok (VBool b))
  end.

Fixpoint run (instances : list FieldElement) (calls : list call)
  : list FieldElement :=
  match calls with
  | [] => instances
  | c :: calls' => run (fst (step instances c)) calls'
  end.

(** ** Field arithmetic of the specification *)

(** Modelled from the spec: the fast modular exponentiation that
    [power] relies on is missing from [FieldElement.py].  Section 4.1:
    square-and-multiply, here on the binary digits of the exponent. *)
Fixpoint modpow_pos (b : Z) (e : positive) (m : Z) : Z :=
  match e with
  | xH => b mod m
  | xO e' => let h := modpow_pos b e' m in (h * h) mod m
  | xI e' => let h := modpow_pos b e' m in ((h * h) mod m * b) mod m
  end.

(** Modelled from the spec: [(b ** e) mod m] for an exponent [e >= 0]
    (section 4.1); [power] never asks for a negative exponent on an
    instance in range. *)
Definition modpow (b e m : Z) : Z :=
  match e with
  | Z0 => 1 mod m
  | Zpos p => modpow_pos b p m
  | Zneg _ => 0
  end.

(** Modelled from the spec: the method [add] is missing from
    [FieldElement.py].  Section 4.1: it fails with
    [IncompatibleOrderError] when the orders differ; the result has value
    [(self.value + other.value) mod order] and the same order, and is
    built through the validated constructor (section 9). *)
Definition add (self other : FieldElement) : result FieldElement :=
  if negb (order self =? order other) then Raise IncompatibleOrderError
  else __init__ ((num self + num other) mod order self) (order self).

(** Modelled from the spec: the method [multiply] is missing from
    [FieldElement.py].  Section 4.1: same order constraint as [add]; the
    result has value [(self.value * other.value) mod order]. *)
Definition multiply (self other : FieldElement) : result FieldElement :=
  if negb (order self =? order other) then Raise IncompatibleOrderError
  else __init__ ((num self * num other) mod order self) (order self).

(** Modelled from the spec: the method [power] is missing from
    [FieldElement.py].  Section 4.1: a negative exponent is first reduced
    modulo [order - 1]; raising zero to an exponent that is still negative
    fails with [ZeroToNonPositivePowerError]; otherwise the result has
    value [(self.value ** exponent) mod order], by square-and-multiply.
    A reduced exponent is negative only when [order - 1 = 0], where [mod]
    leaves it as it is. *)
Definition power (self : FieldElement) (exponent : Z) : result FieldElement :=
  let n := if exponent <? 0 then exponent mod (order self - 1) else exponent in
  if (num self =? 0) && (n <? 0) then Raise ZeroToNonPositivePowerError
  else __init__ (modpow (num self) n (order self)) (order self).

(** ** The script at the end of the module *)

(** [str(b)] for a boolean. *)
Definition str_bool (b : bool) : string :=
  if b then "True" else "False".

(** [template.format(args)] with instances as arguments, for the same
    templates as [format]: the class defines neither [__str__] nor
    [__format__], so a field shows the [__repr__] of its argument. *)
Fixpoint format_instances (template : string) (args : list FieldElement)
  : result string :=
  match template with
  | EmptyString => Ok EmptyString
  | String "{" (String "}" rest) =>
      match args with
      | [] => Raise (IndexError
                "Replacement index out of range for positional args tuple")
      | a :: args' =>
          r <- __repr__ a ;; s <- format_instances rest args' ;; Ok (r ++ s)
      end
  | String "{" _ => Raise (ValueError "expected '}' before end of string")
  | String "}" _ => Raise (ValueError "Single '}' encountered in format string")
  | String c rest => s <- format_instances rest args ;; Ok (String c s)
  end.

(** The block under [if __name__ == "__main__"]: the lines it has
    printed, and how it ends. *)
Definition main : list string * result unit :=
  match __init__ 7 13 with
  | Raise e => ([], Raise e)
  | Ok a =>
      match __init__ 6 13 with
      | Raise e => ([], Raise e)
      | Ok b =>
          match format_instances "Does {} equal {}?" [a; b] with
          | Raise e => ([], Raise e)
          | Ok line =>
              match __eq__ a (PyFieldElement b) with
              | Raise e => ([line], Raise e)
              | Ok r => ([line; str_bool r], Ok tt)
              end
          end
      end
  end.

(** ** Characters of a string *)

(** The characters [str] uses for an integer: the ten digits and the
    minus sign. *)
Definition numeral_char (c : ascii) : bool :=
  match c with
  | "0" | "1" | "2" | "3" | "4" | "5" | "6" | "7" | "8" | "9" | "-" => true
  | _ => false
  end%char.

Fixpoint all_chars (p : ascii -> bool) (s : string) : bool :=
  match s with
  | EmptyString => true
  | String c s' => p c && all_chars p s'
  end.

(** [10 ** 4300], the least integer of 4301 digits. *)
Definition huge : Z := 10 ^ 4300.

(** The error the specification calls [OutOfRangeError]: the
    [ValueError] raised by the constructor, with the message it builds. *)
Definition OutOfRangeError (num order : Z) : exn :=
  ValueError ("Num " ++ decimal num ++ " not in field range 0 to "
              ++ decimal (order - 1)).

(** * Properties *)

Example repr_7_13 :
  __repr__ {| num := 7; order := 13 |} = Ok "FieldElement_13(7)".
Proof. reflexivity. Qed.

Example init_7_13 : __init__ 7 13 = Ok {| num := 7; order := 13 |}.
Proof. reflexivity. Qed.

Example init_13_13 :
  __init__ 13 13 = Raise (ValueError "Num 13 not in field range 0 to 12").
Proof. reflexivity. Qed.

Example eq_int : __eq__ {| num := 7; order := 13 |} (PyInt 5)
  = Raise (AttributeError "'int' object has no attribute 'num'").
Proof. reflexivity. Qed.

(** ** Formatting *)

Lemma decimal_parse (z : Z) : parse_int (decimal z) = Some z.
Proof.
  unfold parse_int, decimal.
  rewrite NilZero.isi.
  - simpl. now rewrite DecimalZ.of_to.
  - destruct z as [|p|p]; simpl; try discriminate.
    intros [= H]. now apply DecimalPos.Unsigned.to_uint_nonnil in H.
  - destruct z as [|p|p]; simpl; try discriminate.
    intros [= H]. now apply DecimalPos.Unsigned.to_uint_nonnil in H.
Qed.

Lemma append_empty_r (s : string) : s ++ "" = s.
Proof.
  induction s as [|c s IH]; simpl; [reflexivity | now rewrite IH].
Qed.

Lemma format_range_message (n o : Z) :
  format "Num {} not in field range 0 to {}" [n; o]
  = if fits n && fits o
    then Ok ("Num " ++ decimal n ++ " not in field range 0 to " ++ decimal o)
    else Raise (ValueError MAX_STR_DIGITS_ERROR).
Proof.
  cbn [format bind]. unfold str_int.
  destruct (fits n), (fits o); cbn [bind andb]; try reflexivity.
  now rewrite append_empty_r.
Qed.

Lemma format_repr (o n : Z) :
  format "FieldElement_{}({})" [o; n]
  = if fits o && fits n
    then Ok ("FieldElement_" ++ decimal o ++ "(" ++ decimal n ++ ")")
    else Raise (ValueError MAX_STR_DIGITS_ERROR).
Proof.
  cbn [format bind]. unfold str_int.
  destruct (fits o), (fits n); reflexivity.
Qed.

(** ** The digit limit *)

Lemma of_lu_bound (d : Decimal.uint) :
  (DecimalPos.Unsigned.of_lu d < 10 ^ N.of_nat (Decimal.nb_digits d))%N.
Proof.
  induction d as [|d IH|d IH|d IH|d IH|d IH|d IH|d IH|d IH|d IH|d IH];
    cbn [DecimalPos.Unsigned.of_lu Decimal.nb_digits];
    [reflexivity | rewrite Nat2N.inj_succ, N.pow_succ_r'; lia ..].
Qed.

Lemma length_string_of_uint (d : Decimal.uint) :
  String.length (NilEmpty.string_of_uint d) = Decimal.nb_digits d.
Proof. induction d; simpl; congruence. Qed.

Lemma digits_pos (p : positive) :
  digits (Z.pos p) = Decimal.nb_digits (Pos.to_uint p).
Proof.
  unfold digits, decimal. cbn [Z.abs Z.to_int NilZero.string_of_int].
  pose proof (DecimalPos.Unsigned.to_uint_nonnil p) as Hnil.
  unfold NilZero.string_of_uint.
  destruct (Pos.to_uint p) eqn:E; try contradiction;
    apply length_string_of_uint.
Qed.

(** A positive integer is below the power of ten of its number of
    digits. *)
Lemma pos_lt_pow_digits (p : positive) :
  Z.pos p < 10 ^ Z.of_nat (digits (Z.pos p)).
Proof.
  rewrite digits_pos.
  pose proof (of_lu_bound (Decimal.rev (Pos.to_uint p))) as H.
  rewrite <- DecimalPos.Unsigned.of_uint_alt, DecimalPos.Unsigned.of_to,
    DecimalFacts.nb_digits_rev in H.
  apply N2Z.inj_lt in H. rewrite N2Z.inj_pow, nat_N_Z in H. exact H.
Qed.

Lemma digits_lower (z : Z) (k : nat) :
  10 ^ Z.of_nat k <= Z.abs z -> (k < digits z)%nat.
Proof.
  intros H.
  assert (0 < 10 ^ Z.of_nat k) as Hpos by (apply Z.pow_pos_nonneg; lia).
  assert (digits z = digits (Z.abs z)) as ->
    by (unfold digits; now rewrite Z.abs_idemp).
  destruct (Z.abs z) as [|p|p] eqn:E; try lia.
  pose proof (pos_lt_pow_digits p) as Hp.
  apply Nat2Z.inj_lt.
  apply (Z.pow_lt_mono_r_iff 10); lia.
Qed.

(** An integer of absolute value [10 ** 4300] or more is over the
    limit. *)
Lemma fits_over_limit (z : Z) :
  10 ^ Z.of_nat int_max_str_digits <= Z.abs z -> fits z = false.
Proof.
  intros H. unfold fits. apply Nat.leb_gt. apply digits_lower, H.
Qed.

Lemma huge_pos : 0 < huge.
Proof. unfold huge. apply Z.pow_pos_nonneg; [reflexivity | discriminate]. Qed.

Lemma huge_bound : 10 ^ Z.of_nat int_max_str_digits <= huge.
Proof.
  unfold huge. change (Z.of_nat int_max_str_digits) with 4300.
  apply Z.le_refl.
Qed.

Lemma huge_large : 100 <= huge.
Proof.
  unfold huge. change 100 with (10 ^ 2).
  apply Z.pow_le_mono_r; [reflexivity | discriminate].
Qed.

(** The limit counts digits, not the sign. *)
Lemma fits_huge :
  fits huge = false /\ fits (- huge) = false /\ fits (huge + 1) = false.
Proof.
  assert (forall z, huge <= Z.abs z -> fits z = false) as Hover.
  { intros z Hz. apply fits_over_limit.
    eapply Z.le_trans; [exact huge_bound | exact Hz]. }
  assert (forall h, 0 < h ->
            h <= Z.abs h /\ h <= Z.abs (- h) /\ h <= Z.abs (h + 1)) as Habs
    by (intros h Hh; lia).
  destruct (Habs huge huge_pos) as (H1 & H2 & H3).
  split; [|split]; apply Hover; assumption.
Qed.

(** ** The constructor *)

Lemma init_accepts (n o : Z) :
  0 <= n < o -> __init__ n o = Ok {| num := n; order := o |}.
Proof.
  intros [Hlo Hhi]. unfold __init__.
  destruct (Z.geb_spec n o); [lia|].
  destruct (Z.ltb_spec n 0); [lia|]. reflexivity.
Qed.

Lemma init_rejects (n o : Z) :
  n < 0 \/ n >= o ->
  __init__ n o
  = Raise (if fits n && fits (o - 1) then OutOfRangeError n o
           else ValueError MAX_STR_DIGITS_ERROR).
Proof.
  intros H. unfold __init__.
  assert ((n >=? o) || (n <? 0) = true) as ->.
  { apply orb_true_iff. destruct H; [right; lia | left; lia]. }
  rewrite format_range_message.
  destruct (fits n && fits (o - 1)); reflexivity.
Qed.

Lemma init_rejects_value_error (n o : Z) :
  n < 0 \/ n >= o -> exists msg, __init__ n o = Raise (ValueError msg).
Proof.
  intros H. rewrite (init_rejects _ _ H).
  destruct (fits n && fits (o - 1)); eexists; reflexivity.
Qed.

Lemma init_rejects_range_message (n o : Z) :
  n < 0 \/ n >= o -> fits n = true -> fits (o - 1) = true ->
  __init__ n o = Raise (OutOfRangeError n o).
Proof.
  intros H Hn Ho. now rewrite (init_rejects _ _ H), Hn, Ho.
Qed.

Lemma init_inv (n o : Z) (fe : FieldElement) :
  __init__ n o = Ok fe -> fe = {| num := n; order := o |} /\ 0 <= n < o.
Proof.
  destruct (Z_lt_dec n 0) as [Hn|Hn].
  { rewrite init_rejects by lia. discriminate. }
  destruct (Z_ge_dec n o) as [Ho|Ho].
  { rewrite init_rejects by lia. discriminate. }
  rewrite init_accepts by lia. intros [= <-]. split; [reflexivity | lia].
Qed.

Lemma init_in_range (n o : Z) (fe : FieldElement) :
  __init__ n o = Ok fe -> in_range fe.
Proof.
  intros H. apply init_inv in H as [-> H]. exact H.
Qed.

(** C3: for every pair with [0 <= value < order] the constructor
    succeeds, and the instance it returns stores exactly [value] and
    [order]. *)
Theorem init_valid_succeeds (value ord : Z) :
  0 <= value < ord ->
  exists fe, __init__ value ord = Ok fe
             /\ num fe = value /\ order fe = ord.
Proof.
  intros H. exists {| num := value; order := ord |}.
  rewrite init_accepts by exact H. repeat split.
Qed.

Lemma init_valid_succeeds_witness :
  exists fe, __init__ 7 13 = Ok fe /\ num fe = 7 /\ order fe = 13.
Proof. apply (init_valid_succeeds 7 13). lia. Defined.

(** C2: for every integer [value] and positive [order] with [value < 0]
    or [value >= order], the constructor raises [ValueError], the error
    the specification names [OutOfRangeError], and returns no instance;
    the exception carries the range message whenever both numbers of the
    message are within the digit limit. *)
Theorem init_out_of_range_fails (value ord : Z) :
  0 < ord -> value < 0 \/ value >= ord ->
  (exists msg, __init__ value ord = Raise (ValueError msg))
  /\ (fits value = true -> fits (ord - 1) = true ->
      __init__ value ord = Raise (OutOfRangeError value ord))
  /\ forall fe, __init__ value ord <> Ok fe.
Proof.
  intros _ H. split; [|split].
  - apply init_rejects_value_error, H.
  - apply init_rejects_range_message, H.
  - rewrite (init_rejects _ _ H). discriminate.
Qed.

Lemma init_out_of_range_fails_witness :
  __init__ 13 13 = Raise (OutOfRangeError 13 13)
  /\ forall fe, __init__ 13 13 <> Ok fe.
Proof.
  destruct (init_out_of_range_fails 13 13) as (_ & Hmsg & Hnone); [lia..|].
  split; [apply Hmsg; reflexivity | exact Hnone].
Defined.

(** ** Instances held by a program *)

Lemma step_in_range (instances : list FieldElement) (c : call) :
  Forall in_range instances -> Forall in_range (fst (step instances c)).
Proof.
  intros H. destruct c as [n o | i | i other]; simpl; try exact H.
  destruct (__init__ n o) as [fe|e] eqn:E; simpl; [|exact H].
  apply Forall_app. split; [exact H|].
  constructor; [|constructor]. exact (init_in_range _ _ _ E).
Qed.

Lemma run_in_range (calls : list call) :
  forall instances,
    Forall in_range instances -> Forall in_range (run instances calls).
Proof.
  induction calls as [|c calls IH]; intros instances H; simpl.
  - exact H.
  - apply IH, step_in_range, H.
Qed.

(** C1: every instance that exists satisfies [0 <= num < order]: the
    constructor rejects every pair outside the range, what it returns is
    inside it, and no sequence of calls of the class's methods leads a
    program to hold an instance outside it. *)
Theorem range_invariant :
  (forall n o, ~ (0 <= n < o) -> exists e, __init__ n o = Raise e)
  /\ (forall n o fe, __init__ n o = Ok fe -> in_range fe)
  /\ (forall instances calls,
         Forall in_range instances -> Forall in_range (run instances calls)).
Proof.
  split; [|split].
  - intros n o H. eexists. apply init_rejects. lia.
  - exact init_in_range.
  - intros instances calls. apply run_in_range.
Qed.

Lemma range_invariant_witness :
  (exists e, __init__ (-1) 13 = Raise e)
  /\ in_range {| num := 7; order := 13 |}
  /\ Forall in_range
       (run [] [New 7 13; New 13 13; Repr 0; Eq 0 (PyInt 5); New 0 1]).
Proof.
  destruct range_invariant as (Hrej & Hacc & Hrun).
  split; [|split].
  - apply Hrej. lia.
  - apply (Hacc 7 13). reflexivity.
  - apply Hrun. constructor.
Defined.

Lemma run_positive_order (calls : list call) :
  Forall (fun fe => 0 < order fe) (run [] calls).
Proof.
  eapply Forall_impl; [|apply (run_in_range calls []); constructor].
  unfold in_range. intros fe H. lia.
Qed.

(** C10: for every integer [num] and every [order <= 0] the constructor
    fails with [ValueError] (with the range message whenever both numbers
    of the message are within the digit limit), since
    [num >= order or num < 0] is then always true; so no instance a
    program holds has a non-positive order. *)
Theorem init_nonpositive_order_fails :
  (forall n o, o <= 0 ->
     (exists msg, __init__ n o = Raise (ValueError msg))
     /\ (fits n = true -> fits (o - 1) = true ->
         __init__ n o = Raise (OutOfRangeError n o))
     /\ (forall fe, __init__ n o <> Ok fe)
     /\ ((n >=? o) || (n <? 0) = true)
     /\ (0 <= n -> n >= o))
  /\ (forall calls, Forall (fun fe => 0 < order fe) (run [] calls)).
Proof.
  split.
  - intros n o Ho.
    assert (n < 0 \/ n >= o) as H by lia.
    split; [apply init_rejects_value_error, H|].
    split; [apply init_rejects_range_message, H|].
    split; [rewrite (init_rejects _ _ H); discriminate|].
    split; [|lia].
    apply orb_true_iff. destruct (Z_lt_dec n 0); [right|left]; lia.
  - exact run_positive_order.
Qed.

Lemma init_nonpositive_order_fails_witness :
  __init__ 0 0 = Raise (OutOfRangeError 0 0)
  /\ __init__ (-3) (-5) = Raise (OutOfRangeError (-3) (-5)).
Proof.
  split.
  - destruct (proj1 init_nonpositive_order_fails 0 0) as (_ & Hmsg & _);
      [lia|]. apply Hmsg; reflexivity.
  - destruct (proj1 init_nonpositive_order_fails (-3) (-5)) as (_ & Hmsg & _);
      [lia|]. apply Hmsg; reflexivity.
Defined.

(** ** Representation *)

Lemma repr_within_limit (self : FieldElement) :
  fits (order self) = true -> fits (num self) = true ->
  __repr__ self
  = Ok ("FieldElement_" ++ decimal (order self) ++ "("
        ++ decimal (num self) ++ ")").
Proof.
  intros Ho Hn. unfold __repr__. now rewrite format_repr, Ho, Hn.
Qed.

Lemma repr_over_limit (self : FieldElement) :
  fits (order self) = false \/ fits (num self) = false ->
  __repr__ self = Raise (ValueError MAX_STR_DIGITS_ERROR).
Proof.
  intros H. unfold __repr__. rewrite format_repr.
  destruct H as [-> | ->]; [reflexivity|].
  now rewrite andb_false_r.
Qed.

Lemma repr_ok_inv (self : FieldElement) (s : string) :
  __repr__ self = Ok s ->
  fits (order self) = true /\ fits (num self) = true
  /\ s = "FieldElement_" ++ decimal (order self) ++ "("
         ++ decimal (num self) ++ ")".
Proof.
  unfold __repr__. rewrite format_repr.
  destruct (fits (order self)), (fits (num self)); try discriminate.
  intros [= <-]. repeat split.
Qed.

(** A rejected construction whose [num] is over the limit raises the
    conversion error in place of the range message. *)
Lemma init_rejects_over_limit (n o : Z) :
  n < 0 \/ n >= o -> fits n = false ->
  __init__ n o = Raise (ValueError MAX_STR_DIGITS_ERROR).
Proof.
  intros H Hn. now rewrite (init_rejects _ _ H), Hn.
Qed.

Example init_huge_rejected :
  __init__ (huge + 1) 13 = Raise (ValueError MAX_STR_DIGITS_ERROR).
Proof.
  apply init_rejects_over_limit; [|apply fits_huge].
  right. generalize huge_large. generalize huge. intros h Hh. lia.
Qed.

Lemma repr_raises_over_limit (h : Z) :
  0 < h -> fits h = false ->
  in_range {| num := h; order := h + 1 |}
  /\ __init__ h (h + 1) = Ok {| num := h; order := h + 1 |}
  /\ __repr__ {| num := h; order := h + 1 |}
     = Raise (ValueError MAX_STR_DIGITS_ERROR)
  /\ forall s, __repr__ {| num := h; order := h + 1 |} <> Ok s.
Proof.
  intros Hpos Hfits.
  assert (__repr__ {| num := h; order := h + 1 |}
          = Raise (ValueError MAX_STR_DIGITS_ERROR)) as Hrepr
    by (apply repr_over_limit; right; exact Hfits).
  split; [unfold in_range; cbn [num order]; lia|].
  split; [apply init_accepts; lia|].
  split; [exact Hrepr|]. intros s. rewrite Hrepr. discriminate.
Qed.

(** An instance of more than 4300 digits exists, and has no
    representation: [__repr__] raises. *)
Lemma repr_huge_raises :
  in_range {| num := huge; order := huge + 1 |}
  /\ __init__ huge (huge + 1) = Ok {| num := huge; order := huge + 1 |}
  /\ __repr__ {| num := huge; order := huge + 1 |}
     = Raise (ValueError MAX_STR_DIGITS_ERROR)
  /\ forall s, __repr__ {| num := huge; order := huge + 1 |} <> Ok s.
Proof.
  exact (repr_raises_over_limit huge huge_pos (proj1 fits_huge)).
Qed.

(** C9, amended: when the order and the value of an instance have at
    most 4300 digits each, its textual representation is exactly
    [FieldElement_<o>(<v>)] with both numbers written in decimal (reading
    the numerals back gives [o] and [v]); when one of them has more,
    [__repr__] raises [ValueError]. *)
Theorem repr_text (self : FieldElement) :
  (fits (order self) = true -> fits (num self) = true ->
   __repr__ self
   = Ok ("FieldElement_" ++ decimal (order self) ++ "("
         ++ decimal (num self) ++ ")")
   /\ parse_int (decimal (order self)) = Some (order self)
   /\ parse_int (decimal (num self)) = Some (num self))
  /\ (fits (order self) = false \/ fits (num self) = false ->
      __repr__ self = Raise (ValueError MAX_STR_DIGITS_ERROR)).
Proof.
  split.
  - intros Ho Hn. split; [apply repr_within_limit; assumption|].
    split; apply decimal_parse.
  - apply repr_over_limit.
Qed.

Lemma repr_text_witness :
  __repr__ {| num := 7; order := 13 |} = Ok "FieldElement_13(7)"
  /\ __repr__ {| num := 7; order := huge + 1 |}
     = Raise (ValueError MAX_STR_DIGITS_ERROR).
Proof.
  split.
  - apply (proj1 (repr_text {| num := 7; order := 13 |}));
      reflexivity.
  - apply (proj2 (repr_text {| num := 7; order := huge + 1 |})).
    left. apply fits_huge.
Defined.

(** ** Equality *)

Lemma eq_field_elements (a b : FieldElement) :
  __eq__ a (PyFieldElement b)
  = Ok ((num a =? num b) && (order a =? order b)).
Proof.
  unfold __eq__. simpl. destruct (num a =? num b); reflexivity.
Qed.

Lemma eq_true_iff (a b : FieldElement) :
  __eq__ a (PyFieldElement b) = Ok true
  <-> num a = num b /\ order a = order b.
Proof.
  rewrite eq_field_elements. split.
  - intros [= H]. apply andb_true_iff in H. lia.
  - intros [Hn Ho]. f_equal. apply andb_true_iff. lia.
Qed.

(** C4: comparing two field elements always returns a boolean, which is
    true exactly when both the values and the orders coincide; comparing
    [FieldElement(7, 13)] with [FieldElement(6, 13)] gives false. *)
Theorem eq_iff_same_fields :
  (forall a b, exists r,
      __eq__ a (PyFieldElement b) = Ok r
      /\ (r = true <-> num a = num b /\ order a = order b))
  /\ __eq__ {| num := 7; order := 13 |}
            (PyFieldElement {| num := 6; order := 13 |}) = Ok false.
Proof.
  split; [|reflexivity].
  intros a b. exists ((num a =? num b) && (order a =? order b)).
  split; [apply eq_field_elements|].
  rewrite andb_true_iff. lia.
Qed.

(** C8: equality of field elements is reflexive, symmetric and
    transitive. *)
Theorem eq_equivalence :
  (forall a, __eq__ a (PyFieldElement a) = Ok true)
  /\ (forall a b,
        __eq__ a (PyFieldElement b) = Ok true ->
        __eq__ b (PyFieldElement a) = Ok true)
  /\ (forall a b c,
        __eq__ a (PyFieldElement b) = Ok true ->
        __eq__ b (PyFieldElement c) = Ok true ->
        __eq__ a (PyFieldElement c) = Ok true).
Proof.
  split; [|split].
  - intros a. apply eq_true_iff. split; reflexivity.
  - intros a b H. apply eq_true_iff in H. apply eq_true_iff.
    destruct H. split; congruence.
  - intros a b c Hab Hbc. apply eq_true_iff in Hab, Hbc. apply eq_true_iff.
    destruct Hab, Hbc. split; congruence.
Qed.

Lemma eq_equivalence_witness :
  __eq__ {| num := 7; order := 13 |}
         (PyFieldElement {| num := 7; order := 13 |}) = Ok true.
Proof.
  destruct eq_equivalence as (Hrefl & Hsym & Htrans).
  apply (Htrans _ {| num := 7; order := 13 |}).
  - apply Hsym. reflexivity.
  - apply Hrefl.
Defined.

(** An integer is not a field element, and comparing with it raises
    [AttributeError] instead of returning false. *)
Lemma eq_int_raises :
  (forall fe, PyInt 5 <> PyFieldElement fe)
  /\ __eq__ {| num := 7; order := 13 |} (PyInt 5)
     = Raise (AttributeError "'int' object has no attribute 'num'")
  /\ __eq__ {| num := 7; order := 13 |} (PyInt 5) <> Ok false.
Proof.
  split; [discriminate|]. split; [reflexivity | discriminate].
Qed.

(** An object of another class that carries the same two attributes
    compares equal. *)
Example eq_foreign_instance :
  __eq__ {| num := 7; order := 13 |}
         (PyInstance "Point" [("num", AInt 7); ("order", AInt 13)])
  = Ok true.
Proof. reflexivity. Qed.

(** C5, amended: comparing a field element with [None] returns false
    and raises nothing; a target that is neither [None] nor has an
    attribute [num] makes the comparison raise the [AttributeError] of
    the failed access. *)
Theorem eq_none_false :
  (forall self, __eq__ self PyNone = Ok false)
  /\ (forall self other e,
        other <> PyNone -> getattr other "num" = Raise e ->
        __eq__ self other = Raise e).
Proof.
  split; [reflexivity|].
  intros self other e Hnone Hattr.
  destruct other; try contradiction; unfold __eq__; now rewrite Hattr.
Qed.

Lemma eq_none_false_witness :
  __eq__ {| num := 7; order := 13 |} (PyStr "7")
  = Raise (AttributeError "'str' object has no attribute 'num'").
Proof.
  apply (proj2 eq_none_false); [discriminate | reflexivity].
Defined.

(** ** Arithmetic of the specification *)

Lemma in_range_order_pos (a : FieldElement) : in_range a -> 0 < order a.
Proof. unfold in_range. lia. Qed.

Lemma init_mod (x m : Z) :
  0 < m -> __init__ (x mod m) m = Ok {| num := x mod m; order := m |}.
Proof.
  intros Hm. apply init_accepts. apply Z.mod_pos_bound, Hm.
Qed.

Lemma modpow_pos_spec (b : Z) (m : Z) (e : positive) :
  m <> 0 -> modpow_pos b e m = (b ^ Z.pos e) mod m.
Proof.
  intros Hm. induction e as [e IH | e IH |]; simpl modpow_pos.
  - rewrite IH, Pos2Z.inj_xI, Z.pow_add_r, Z.pow_twice_r, Z.pow_1_r by lia.
    rewrite <- Z.mul_mod by exact Hm.
    now rewrite Z.mul_mod_idemp_l by exact Hm.
  - rewrite IH, Pos2Z.inj_xO, Z.pow_twice_r.
    now rewrite <- Z.mul_mod by exact Hm.
  - now rewrite Z.pow_1_r.
Qed.

Lemma modpow_spec (b e m : Z) :
  m <> 0 -> 0 <= e -> modpow b e m = (b ^ e) mod m.
Proof.
  intros Hm He. destruct e as [|p|p]; simpl modpow.
  - reflexivity.
  - apply modpow_pos_spec, Hm.
  - lia.
Qed.

Lemma add_in_range (a b r : FieldElement) : add a b = Ok r -> in_range r.
Proof.
  unfold add. destruct (negb (order a =? order b)); [discriminate|].
  apply init_in_range.
Qed.

Lemma multiply_in_range (a b r : FieldElement) :
  multiply a b = Ok r -> in_range r.
Proof.
  unfold multiply. destruct (negb (order a =? order b)); [discriminate|].
  apply init_in_range.
Qed.

Lemma power_in_range (a r : FieldElement) (e : Z) :
  power a e = Ok r -> in_range r.
Proof.
  unfold power.
  match goal with |- context [if ?c then Raise _ else _] => destruct c end;
    [discriminate | apply init_in_range].
Qed.

Lemma multiply_same_order (a b : FieldElement) :
  in_range a -> order a = order b ->
  multiply a b
  = Ok {| num := (num a * num b) mod order a; order := order a |}.
Proof.
  intros Ha Ho. unfold multiply.
  rewrite <- Ho, Z.eqb_refl. simpl.
  apply init_mod, in_range_order_pos, Ha.
Qed.

Lemma power_nonneg (a : FieldElement) (e : Z) :
  in_range a -> 0 <= e ->
  power a e = Ok {| num := (num a ^ e) mod order a; order := order a |}.
Proof.
  intros Ha He. pose proof (in_range_order_pos a Ha) as Hm.
  unfold power.
  destruct (Z.ltb_spec e 0) as [|_]; [lia|].
  destruct (Z.ltb_spec e 0) as [|_]; [lia|].
  rewrite andb_false_r, modpow_spec by lia.
  apply init_mod, Hm.
Qed.

Lemma power_negative (a : FieldElement) (e : Z) :
  in_range a -> 1 < order a -> e < 0 ->
  power a e
  = Ok {| num := (num a ^ (e mod (order a - 1))) mod order a;
          order := order a |}.
Proof.
  intros Ha Hm He.
  assert (0 <= e mod (order a - 1) < order a - 1) as Hred
    by (apply Z.mod_pos_bound; lia).
  unfold power.
  destruct (Z.ltb_spec e 0) as [_|]; [|lia].
  destruct (Z.ltb_spec (e mod (order a - 1)) 0) as [|_]; [lia|].
  rewrite andb_false_r, modpow_spec by lia.
  apply init_mod. lia.
Qed.

(** C6: [add] fails with [IncompatibleOrderError] when the orders of
    the two elements differ; otherwise it returns the element of the same
    order whose value is [(a.value + b.value) mod order]; in the field of
    order 13, 7 plus 6 is 0. *)
Theorem add_spec :
  (forall a b, in_range a -> in_range b -> order a <> order b ->
     add a b = Raise IncompatibleOrderError)
  /\ (forall a b, in_range a -> in_range b -> order a = order b ->
        add a b
        = Ok {| num := (num a + num b) mod order a; order := order a |})
  /\ (exists r,
        add {| num := 7; order := 13 |} {| num := 6; order := 13 |} = Ok r
        /\ __eq__ r (PyFieldElement {| num := 0; order := 13 |}) = Ok true).
Proof.
  split; [|split].
  - intros a b _ _ Ho. unfold add.
    destruct (Z.eqb_spec (order a) (order b)); [contradiction | reflexivity].
  - intros a b Ha _ Ho. unfold add.
    rewrite <- Ho, Z.eqb_refl. simpl.
    apply init_mod, in_range_order_pos, Ha.
  - exists {| num := 0; order := 13 |}. split; reflexivity.
Qed.

Lemma add_spec_witness :
  add {| num := 7; order := 13 |} {| num := 6; order := 11 |}
  = Raise IncompatibleOrderError
  /\ add {| num := 12; order := 13 |} {| num := 5; order := 13 |}
     = Ok {| num := (12 + 5) mod 13; order := 13 |}.
Proof.
  destruct add_spec as (Hdiff & Hsame & _).
  split.
  - apply Hdiff; unfold in_range; simpl; lia.
  - apply (Hsame {| num := 12; order := 13 |} {| num := 5; order := 13 |});
      unfold in_range; simpl; lia.
Defined.

Lemma prime_13 : Z.prime 13.
Proof.
  split; [lia|]. intros n Hn [k Hk].
  assert (n = 2 \/ n = 3 \/ n = 4 \/ n = 5 \/ n = 6 \/ n = 7 \/ n = 8
          \/ n = 9 \/ n = 10 \/ n = 11 \/ n = 12) as Hcases by lia.
  repeat (destruct Hcases as [-> | Hcases]; [lia|]). subst n. lia.
Qed.

Lemma minus_one_reduced (p : Z) : 2 <= p -> (-1) mod (p - 1) = p - 2.
Proof.
  intros Hp. symmetry. apply Z.mod_unique_pos with (q := -1); lia.
Qed.

Lemma inverse_by_fermat (x p : Z) :
  Z.prime p -> 0 < x < p -> (x * (x ^ (p - 2) mod p)) mod p = 1.
Proof.
  intros Hp Hx. pose proof (Z.prime_ge_2 p Hp) as Hp2.
  rewrite Z.mul_mod_idemp_r by lia.
  rewrite <- Z.pow_succ_r by lia.
  replace (Z.succ (p - 2)) with (p - 1) by lia.
  apply Z.fermat_nz; [exact Hp|].
  rewrite Z.mod_small by lia. lia.
Qed.

(** C7: for a field element [a] of prime order with a non-zero value
    and a negative exponent [e], the reduced exponent
    [e mod (order - 1)] is non-negative and [power a e] returns what
    [power a (e mod (order - 1))] returns; and [a] times [power a (-1)]
    is the element of value 1 and the same order. *)
Theorem power_negative_exponent (a : FieldElement) (e : Z) :
  in_range a -> Z.prime (order a) -> num a <> 0 -> e < 0 ->
  0 <= e mod (order a - 1)
  /\ (exists r, power a e = Ok r /\ power a (e mod (order a - 1)) = Ok r)
  /\ (exists inv,
        power a (-1) = Ok inv
        /\ multiply a inv = Ok {| num := 1; order := order a |}).
Proof.
  intros Ha Hp Hnz He.
  pose proof (Z.prime_ge_2 _ Hp) as Hp2.
  assert (0 <= e mod (order a - 1) < order a - 1) as Hred
    by (apply Z.mod_pos_bound; lia).
  split; [lia|]. split.
  - eexists. split; [apply power_negative; [exact Ha | lia | exact He]|].
    rewrite power_nonneg by (exact Ha || lia).
    reflexivity.
  - eexists. split; [apply power_negative; [exact Ha | lia | lia]|].
    rewrite multiply_same_order by (exact Ha || reflexivity).
    cbn [num order]. rewrite minus_one_reduced by lia.
    rewrite inverse_by_fermat; [reflexivity | exact Hp |].
    unfold in_range in Ha. lia.
Qed.

Lemma power_negative_exponent_witness :
  0 <= (-3) mod (13 - 1)
  /\ (exists r, power {| num := 7; order := 13 |} (-3) = Ok r
                /\ power {| num := 7; order := 13 |} ((-3) mod (13 - 1)) = Ok r)
  /\ (exists inv,
        power {| num := 7; order := 13 |} (-1) = Ok inv
        /\ multiply {| num := 7; order := 13 |} inv
           = Ok {| num := 1; order := 13 |}).
Proof.
  apply (power_negative_exponent {| num := 7; order := 13 |} (-3)).
  - unfold in_range; simpl; lia.
  - exact prime_13.
  - simpl; lia.
  - lia.
Defined.

Example power_7_13_inverse :
  power {| num := 7; order := 13 |} (-1) = Ok {| num := 2; order := 13 |}.
Proof. reflexivity. Qed.

(** * Further properties of the source *)

(** ** The script *)

Example main_output :
  main = (["Does FieldElement_13(7) equal FieldElement_13(6)?"; "False"],
          Ok tt).
Proof. reflexivity. Qed.

(** ** Numerals inside a text *)

Lemma uint_numeral (d : Decimal.uint) :
  all_chars numeral_char (NilEmpty.string_of_uint d) = true.
Proof. induction d; simpl; auto. Qed.

Lemma decimal_numeral (z : Z) : all_chars numeral_char (decimal z) = true.
Proof.
  unfold decimal, NilZero.string_of_int, NilZero.string_of_uint.
  destruct (Z.to_int z) as [d|d]; destruct d; try reflexivity;
    cbn [all_chars numeral_char andb]; apply (uint_numeral (_ _)).
Qed.

Lemma decimal_inj (x y : Z) : decimal x = decimal y -> x = y.
Proof.
  intros H. apply (f_equal parse_int) in H.
  rewrite !decimal_parse in H. now injection H.
Qed.

Lemma append_inj_l (s x y : string) : s ++ x = s ++ y -> x = y.
Proof.
  induction s as [|c s IH]; simpl; [trivial|].
  intros [= H]. now apply IH.
Qed.

(** A text that starts with a numeral followed by a character no
    numeral contains is cut in one way only. *)
Lemma numeral_prefix_unique (p : ascii -> bool) (c : ascii) :
  p c = false ->
  forall s1 s2 t1 t2,
    all_chars p s1 = true -> all_chars p s2 = true ->
    s1 ++ String c t1 = s2 ++ String c t2 -> s1 = s2 /\ t1 = t2.
Proof.
  intros Hc. induction s1 as [|a s1 IH]; intros [|b s2] t1 t2 H1 H2; simpl.
  - intros [= ->]. split; reflexivity.
  - intros [= <- _]. simpl in H2. rewrite Hc in H2. discriminate.
  - intros [= -> _]. simpl in H1. rewrite Hc in H1. discriminate.
  - intros [= -> H]. simpl in H1, H2.
    apply andb_true_iff in H1 as [_ H1]. apply andb_true_iff in H2 as [_ H2].
    destruct (IH s2 t1 t2 H1 H2 H) as [-> ->]. split; reflexivity.
Qed.

(** ** Representation and equality *)

Lemma repr_text_inj (a b : FieldElement) :
  "FieldElement_" ++ decimal (order a) ++ "(" ++ decimal (num a) ++ ")"
  = "FieldElement_" ++ decimal (order b) ++ "(" ++ decimal (num b) ++ ")" ->
  a = b.
Proof.
  intros [= H].
  apply (numeral_prefix_unique numeral_char "(" eq_refl
           (decimal (order a)) (decimal (order b))
           (decimal (num a) ++ ")") (decimal (num b) ++ ")")
           (decimal_numeral _) (decimal_numeral _)) in H as [Ho Hn].
  apply (numeral_prefix_unique numeral_char ")" eq_refl
           (decimal (num a)) (decimal (num b)) "" ""
           (decimal_numeral _) (decimal_numeral _)) in Hn as [Hn _].
  apply decimal_inj in Ho, Hn.
  destruct a, b; simpl in *; congruence.
Qed.

(** X1: the representation identifies the instance: when [__repr__]
    returns a text for a field element, it returns the same text for
    another one exactly when [__eq__] finds the two equal. *)
Theorem repr_same_iff_equal (a b : FieldElement) (s : string) :
  __repr__ a = Ok s ->
  (__repr__ b = Ok s <-> __eq__ a (PyFieldElement b) = Ok true).
Proof.
  intros Ha. rewrite eq_true_iff. split.
  - intros Hb.
    apply repr_ok_inv in Ha as (_ & _ & ->).
    apply repr_ok_inv in Hb as (_ & _ & Hb).
    apply repr_text_inj in Hb. subst b. split; reflexivity.
  - intros [Hn Ho]. replace b with a; [exact Ha|].
    destruct a, b; simpl in *; congruence.
Qed.

Lemma repr_same_iff_equal_witness :
  __eq__ {| num := 7; order := 13 |}
         (PyFieldElement {| num := 3 + 4; order := 13 |}) = Ok true.
Proof.
  apply (proj1 (repr_same_iff_equal {| num := 7; order := 13 |}
                                    {| num := 3 + 4; order := 13 |}
                                    "FieldElement_13(7)" eq_refl)).
  reflexivity.
Defined.

(** ** Equality with foreign objects *)

Lemma eq_not_none (self : FieldElement) (other : pyobj) :
  other <> PyNone ->
  __eq__ self other
  = (n <- getattr other "num" ;;
     if int_eq (num self) n
     then o <- getattr other "order" ;; Ok (int_eq (order self) o)
     else Ok false).
Proof.
  intros Hnone. destruct other; [contradiction | reflexivity..].
Qed.

(** X2: the class of the comparison target is never inspected: against
    any object other than [None] whose attributes [num] and [order] hold
    integers, [__eq__] returns a boolean, true exactly when both integers
    are those of [self]. *)
Theorem eq_reads_attributes_only
  (self : FieldElement) (other : pyobj) (n o : Z) :
  other <> PyNone ->
  getattr other "num" = Ok (AInt n) ->
  getattr other "order" = Ok (AInt o) ->
  exists r, __eq__ self other = Ok r
            /\ (r = true <-> num self = n /\ order self = o).
Proof.
  intros Hnone Hn Ho.
  exists ((num self =? n) && (order self =? o)). split.
  - rewrite eq_not_none, Hn by exact Hnone. simpl.
    destruct (num self =? n); [rewrite Ho|]; reflexivity.
  - rewrite andb_true_iff. lia.
Qed.

Lemma eq_reads_attributes_only_witness :
  exists r,
    __eq__ {| num := 7; order := 13 |}
           (PyInstance "Point"
              [("x", AStr "a"); ("num", AInt 7); ("order", AInt 13)])
    = Ok r
    /\ (r = true <-> 7 = 7 /\ 13 = 13).
Proof.
  apply (eq_reads_attributes_only {| num := 7; order := 13 |}
           (PyInstance "Point"
              [("x", AStr "a"); ("num", AInt 7); ("order", AInt 13)]) 7 13).
  - discriminate.
  - reflexivity.
  - reflexivity.
Defined.

(** ** The message of the constructor *)

Lemma init_raise_inv (n o : Z) (e : exn) :
  __init__ n o = Raise e ->
  e = (if fits n && fits (o - 1) then OutOfRangeError n o
       else ValueError MAX_STR_DIGITS_ERROR)
  /\ (n < 0 \/ n >= o).
Proof.
  destruct (Z_lt_dec n 0) as [Hn|Hn].
  { rewrite init_rejects by lia. intros [= <-]. split; [reflexivity | lia]. }
  destruct (Z_ge_dec n o) as [Ho|Ho].
  { rewrite init_rejects by lia. intros [= <-]. split; [reflexivity | lia]. }
  rewrite init_accepts by lia. discriminate.
Qed.

(** X5: within the digit limit the exception of a rejected construction
    names its arguments: when [num] and [order - 1] have at most 4300
    digits each, another rejected call raises the same exception only if
    it was given the same [num] and the same [order]. *)
Theorem init_error_identifies_arguments (n o n' o' : Z) (e : exn) :
  fits n = true -> fits (o - 1) = true ->
  __init__ n o = Raise e -> __init__ n' o' = Raise e -> n = n' /\ o = o'.
Proof.
  intros Hn Ho H H'. apply init_raise_inv in H as [-> _].
  apply init_raise_inv in H' as [H' _].
  rewrite Hn, Ho in H'. cbn [andb] in H'.
  destruct (fits n' && fits (o' - 1)); [|discriminate].
  unfold OutOfRangeError in H'. injection H' as H'.
  apply (numeral_prefix_unique numeral_char " " eq_refl
           (decimal n) (decimal n')
           ("not in field range 0 to " ++ decimal (o - 1))
           ("not in field range 0 to " ++ decimal (o' - 1))
           (decimal_numeral _) (decimal_numeral _)) in H' as [Hn' Ho'].
  apply append_inj_l in Ho'. apply decimal_inj in Hn', Ho'. lia.
Qed.

Lemma init_error_identifies_arguments_witness : 13 = 13 /\ 5 + 8 = 13.
Proof.
  apply (init_error_identifies_arguments 13 (5 + 8) 13 13
           (OutOfRangeError 13 13)); reflexivity.
Defined.
